(** * Product store service: the request handlers of [service/routes.py]

    A shallow embedding of the routing layer of the product store and the
    properties of its handlers.  Handlers are functions in a small state
    and abort monad over a [world] made of the product table, the server
    log and the trace of calls to the persistence layer. *)

From Stdlib Require Import ZArith Ascii DecimalString.
From stdpp Require Import base option list strings gmap.

Local Open Scope Z_scope.

(** ** Python [str] primitives

    A [str] is modelled as a [string] whose characters are the code points
    below 256; on that range the functions below agree with CPython. *)
Module Str.

(** [str.isspace] on one code point: tab to carriage return, the four
    separators U+001C to U+001F, space, U+0085 and U+00A0. *)
Definition isspace (c : ascii) : bool :=
  let n := N_of_ascii c in
  ((9 <=? n) && (n <=? 13) || (28 <=? n) && (n <=? 32)
   || (n =? 133) || (n =? 160))%N.

(** [str.lower] on one code point: A-Z, and the upper-case letters of
    U+00C0..U+00DE except the multiplication sign U+00D7. *)
Definition lower_char (c : ascii) : ascii :=
  let n := N_of_ascii c in
  if ((65 <=? n) && (n <=? 90)
      || (192 <=? n) && (n <=? 222) && negb (n =? 215))%N
  then ascii_of_N (n + 32) else c.

Fixpoint lower (s : string) : string :=
  match s with
  | EmptyString => EmptyString
  | String c s' => String (lower_char c) (lower s')
  end.

Fixpoint lstrip (s : string) : string :=
  match s with
  | EmptyString => EmptyString
  | String c s' => if isspace c then lstrip s' else s
  end.

Fixpoint rstrip (s : string) : string :=
  match s with
  | EmptyString => EmptyString
  | String c s' =>
      match rstrip s' with
      | EmptyString => if isspace c then EmptyString else String c EmptyString
      | r => String c r
      end
  end.

(** [s.strip()] *)
Definition strip (s : string) : string := rstrip (lstrip s).

(** Strings made of whitespace only. *)
Fixpoint all_space (s : string) : bool :=
  match s with
  | EmptyString => true
  | String c s' => isspace c && all_space s'
  end.

(** [s.startswith(p)] *)
Fixpoint startswith (p s : string) : bool :=
  match p, s with
  | EmptyString, _ => true
  | String _ _, EmptyString => false
  | String c p', String d s' => bool_decide (c = d) && startswith p' s'
  end.

(** [needle in hay] *)
Fixpoint contains (needle hay : string) : bool :=
  startswith needle hay
  || match hay with
     | EmptyString => false
     | String _ hay' => contains needle hay'
     end.

(** [str(n)] for an integer. *)
Definition of_Z (n : Z) : string := NilEmpty.string_of_int (Z.to_int n).

End Str.

(** The message [msg] includes [part]. *)
Definition includes (msg part : string) : Prop :=
  ∃ pre post, msg = pre +:+ part +:+ post.

(** ** Utility functions *)

(** [_parse_bool_param]: [None] as argument is the absent parameter, [None]
    as result is the Python [None]. *)
Definition _parse_bool_param (value : option string) : option bool :=
  match value with
  | None => None
  | Some value =>
      let val := Str.lower (Str.strip value) in
      if bool_decide (val ∈ ["true"; "1"; "yes"; "y"; "t"]) then Some true
      else if bool_decide (val ∈ ["false"; "0"; "no"; "n"; "f"]) then Some false
      else None
  end.

(** ** Data model *)

(** The values [jsonify] renders and [request.get_json] returns. *)
#[warnings="-register-all"]
Inductive json :=
| JNull
| JBool (b : bool)
| JInt (n : Z)
| JStr (s : string)
| JList (items : list json)
| JObj (members : list (string * json)).

(** Modelled from the spec: [service/common/status.py] is not part of the
    sources at hand; each constant is the HTTP code its name carries. *)
Module status.
Definition HTTP_200_OK : Z := 200.
Definition HTTP_400_BAD_REQUEST : Z := 400.
Definition HTTP_404_NOT_FOUND : Z := 404.
Definition HTTP_415_UNSUPPORTED_MEDIA_TYPE : Z := 415.
End status.

(** The part of Flask's [request] the handlers read: the headers, the query
    arguments and the parsed JSON body ([None] when the body does not parse). *)
Record Request := {
  headers : gmap string string;
  args : gmap string string;
  body : option json;
}.

(** What a view function returns: [jsonify(payload), code]. *)
Record Response := { payload : json; code : Z }.

(** A request that carries the query parameter [k] and nothing else, and a
    request with the query parameter [k] dropped. *)
Definition only (k v : string) : Request :=
  {| headers := ∅; args := {[ k := v ]}; body := None |}.

Definition without (k : string) (request : Request) : Request :=
  {| headers := headers request; args := delete k (args request);
     body := body request |}.

(** A query parameter that Python's [if] takes for false: not given, or given
    with the empty string. *)
Definition absent_or_empty (o : option string) : Prop :=
  o = None ∨ o = Some "".

(** Levels of [app.logger]. *)
Variant level := INFO | ERROR.

(** The value of [getattr(cls, name)] on an enumeration class: a member, or
    some other attribute of the class. *)
Variant class_attr (C : Type) :=
| Member (c : C)
| Other (attr : string).
Arguments Member {C} c.
Arguments Other {C} attr.

(** The [Category] enumeration of [service/models.py], which is not part of
    the sources at hand: its members, their names, and the attribute lookup
    [getattr(Category, name)], which fails ([AttributeError]) with [None]. *)
Class Enumeration := {
  Category : Type;
  Category_eq_dec :: EqDecision Category;
  Category_name : Category → string;
  Category_getattr : string → option (class_attr Category);
}.

Section Model.
Context `{Enumeration}.

(** Modelled from the spec: the [Product] model of [service/models.py] is
    not part of the sources at hand; the record has the attributes of the
    spec's data model, the price in its decimal notation. *)
Record Product := {
  id : Z;
  name : string;
  description : option string;
  price : string;
  available : bool;
  category : Category;
}.

(** [product.id = i] *)
Definition with_id (i : Z) (p : Product) : Product :=
  {| id := i; name := name p; description := description p;
     price := price p; available := available p; category := category p |}.

(** Modelled from the spec: [Product.serialize], the JSON shape of a product
    given with the external interfaces. *)
Definition serialize (p : Product) : json :=
  JObj [("id", JInt (id p)); ("name", JStr (name p));
        ("description", from_option JStr JNull (description p));
        ("price", JStr (price p)); ("available", JBool (available p));
        ("category", JStr (Category_name (category p)))].

(** [product.deserialize(data)] either yields the product with the payload's
    fields or raises [DataValidationError] with a message. *)
Variant deserialized :=
| Valid (p : Product)
| DataValidationError (message : string).

End Model.

(** What the handlers use of [service/models.py] beyond the data: it is not
    part of the sources at hand, and the spec leaves these three to it. *)
Class ModelLayer `{Enumeration} := {
  (** [Product.deserialize] *)
  deserialize : Product → json → deserialized;
  (** the matching rule of [Product.find_by_name]: query first, stored name
      second *)
  name_matches : string → string → bool;
  (** a category query handed a class attribute that is not a member: rows, or
      an error response *)
  query_other : string → list Product → list Product + Z * string;
}.

Section Service.
Context `{ModelLayer}.

(** *** The world a handler runs in *)

(** Calls made to the persistence layer. *)
Variant db_call :=
| Find (i : Z)
| FindByName (n : string)
| FindByCategory (c : class_attr Category)
| FindByAvailability (b : bool)
| All
| Update (i : Z).

Record world := {
  table : list Product;
  log : list (level * string);
  calls : list db_call;
}.

(** A handler either returns or is cut short by [abort(code, description)]. *)
Variant outcome (A : Type) :=
| Done (a : A)
| Aborted (code : Z) (description : string).
Global Arguments Done {A} a.
Global Arguments Aborted {A} code description.

Definition M (A : Type) : Type := world → world * outcome A.

Definition ret {A} (a : A) : M A := λ w, (w, Done a).
Definition bind {A B} (m : M A) (k : A → M B) : M B :=
  λ w, match m w with
       | (w', Done a) => k a w'
       | (w', Aborted c d) => (w', Aborted c d)
       end.
Definition abort {A} (c : Z) (description : string) : M A :=
  λ w, (w, Aborted c description).

Notation "'do' x <- m ; k" := (bind m (λ x, k))
  (at level 10, x name, m at level 100, k at level 200).
Notation "m >> k" := (bind m (λ _, k))
  (at level 10, k at level 200, only parsing).

(** The world after a line was logged, and after a call was traced. *)
Definition logged (l : level) (msg : string) (w : world) : world :=
  {| table := table w; log := log w ++ [(l, msg)]; calls := calls w |}.

Definition after_call (c : db_call) (w : world) : world :=
  {| table := table w; log := log w; calls := calls w ++ [c] |}.

(** [app.logger.info] and [app.logger.error] *)
Definition logger (l : level) (msg : string) : M unit :=
  λ w, (logged l msg w, Done tt).

Definition called (c : db_call) : M unit :=
  λ w, (after_call c w, Done tt).

Definition rows : M (list Product) := λ w, (w, Done (table w)).
Definition set_rows (t : list Product) : M unit :=
  λ w, ({| table := t; log := log w; calls := calls w |}, Done tt).

(** *** Persistence layer

    Modelled from the spec: the queries and the update of
    [service/models.py], which is not part of the sources at hand.  A query
    returns the rows that match, in table order; [update] writes the object
    back to the row it was loaded from. *)

(** An object loaded from the table remembers its row. *)
Record instance := { row : Z; fields : Product }.

(** The first row with a given id. *)
Definition find_row (i : Z) (t : list Product) : option Product :=
  List.find (λ p, bool_decide (id p = i)) t.

(** The rows after the object loaded from row [i] was written back. *)
Definition write_row (i : Z) (new : Product) (t : list Product)
  : list Product :=
  List.map (λ p, if bool_decide (id p = i) then new else p) t.

Definition Product_find (i : Z) : M (option instance) :=
  called (Find i) >>
  do t <- rows;
  ret (option_map (Build_instance i) (find_row i t)).

Definition Product_find_by_name (n : string) : M (list Product) :=
  called (FindByName n) >>
  do t <- rows;
  ret (List.filter (λ p, name_matches n (name p)) t).

Definition Product_find_by_category (c : class_attr Category)
  : M (list Product) :=
  called (FindByCategory c) >>
  do t <- rows;
  match c with
  | Member c => ret (List.filter (λ p, bool_decide (category p = c)) t)
  | Other a =>
      match query_other a t with
      | inl r => ret r
      | inr (c, d) => abort c d
      end
  end.

Definition Product_find_by_availability (b : bool) : M (list Product) :=
  called (FindByAvailability b) >>
  do t <- rows;
  ret (List.filter (λ p, bool_decide (available p = b)) t).

Definition Product_all : M (list Product) :=
  called All >> rows.

Definition Product_update (o : instance) : M unit :=
  called (Update (row o)) >>
  do t <- rows;
  set_rows (write_row (row o) (fields o) t).

(** *** Framework *)

(** The response to a listing: the rows serialized, with code 200. *)
Definition listing (ps : list Product) : Response :=
  {| payload := JList (List.map serialize ps); code := 200 |}.

(** [jsonify(j), c] *)
Definition jsonify (j : json) (c : Z) : M Response :=
  ret {| payload := j; code := c |}.

(** The description Werkzeug gives a [BadRequest] raised without one. *)
Definition bad_request : string :=
  "The browser (or proxy) sent a request that this server could not understand.".

(** [request.get_json()] under a JSON content type. *)
Definition get_json (request : Request) : M json :=
  match body request with
  | Some data => ret data
  | None => abort status.HTTP_400_BAD_REQUEST bad_request
  end.

(** *** Utility functions of [routes.py] *)

Definition check_content_type (request : Request) (content_type : string)
  : M unit :=
  match headers request !! "Content-Type" with
  | None =>
      logger ERROR "No Content-Type specified." >>
      abort status.HTTP_415_UNSUPPORTED_MEDIA_TYPE
        ("Content-Type must be " +:+ content_type)
  | Some received =>
      if bool_decide (received = content_type) then ret tt
      else
        logger ERROR ("Invalid Content-Type: " +:+ received) >>
        abort status.HTTP_415_UNSUPPORTED_MEDIA_TYPE
          ("Content-Type must be " +:+ content_type)
  end.

Definition _get_product_or_404 (product_id : Z) : M instance :=
  do product <- Product_find product_id;
  match product with
  | None =>
      abort status.HTTP_404_NOT_FOUND
        ("Product with id '" +:+ Str.of_Z product_id +:+ "' was not found.")
  | Some product => ret product
  end.

(** *** Handlers *)

(** [GET /products] *)
Definition list_products (request : Request) : M Response :=
  logger INFO "Request to list Products..." >>
  let name := args request !! "name" in
  let category := args request !! "category" in
  let available := args request !! "available" in
  do products <-
    match name with
    | Some (String _ _ as name) => Product_find_by_name name
    | _ =>
        match category with
        | Some (String _ _ as category) =>
            do category_enum <-
              match Category_getattr category with
              | Some v => ret v
              | None =>
                  abort status.HTTP_400_BAD_REQUEST
                    ("Invalid category: " +:+ category)
              end;
            Product_find_by_category category_enum
        | _ =>
            match available with
            | Some available =>
                match _parse_bool_param (Some available) with
                | None =>
                    abort status.HTTP_400_BAD_REQUEST
                      ("Invalid availability: " +:+ available)
                | Some bool_value => Product_find_by_availability bool_value
                end
            | None => Product_all
            end
        end
    end;
  let results := List.map serialize products in
  jsonify (JList results) status.HTTP_200_OK.

(** [GET /products/<int:product_id>] *)
Definition get_products (product_id : Z) : M Response :=
  logger INFO
    ("Request to Retrieve Product with id [" +:+ Str.of_Z product_id +:+ "]") >>
  do product <- _get_product_or_404 product_id;
  jsonify (serialize (fields product)) status.HTTP_200_OK.

(** [PUT /products/<int:product_id>] *)
Definition update_products (request : Request) (product_id : Z) : M Response :=
  logger INFO
    ("Request to Update Product with id [" +:+ Str.of_Z product_id +:+ "]") >>
  check_content_type request "application/json" >>
  do product <- _get_product_or_404 product_id;
  do data <- get_json request;
  do product <-
    match deserialize (fields product) data with
    | Valid p => ret {| row := row product; fields := p |}
    | DataValidationError error => abort status.HTTP_400_BAD_REQUEST error
    end;
  let product :=
    {| row := row product; fields := with_id product_id (fields product) |} in
  Product_update product >>
  jsonify (serialize (fields product)) status.HTTP_200_OK.

End Service.

(** ** A shop to run the handlers on

    An instance of the model layer, used to evaluate the handlers on
    concrete requests. *)
Module Shop.

(** A catalogue with the member the spec names, [CLOTHS], and two more. *)
Variant members := CLOTHS | FOOD | TOOLS.

#[export] Instance members_eq_dec : EqDecision members.
Proof. solve_decision. Defined.

Definition member_name (c : members) : string :=
  match c with CLOTHS => "CLOTHS" | FOOD => "FOOD" | TOOLS => "TOOLS" end.

(** Attribute lookup on the class: the members by name, and attributes
    every enumeration class has besides them. *)
Definition getattr (attr : string) : option (class_attr members) :=
  if bool_decide (attr = "CLOTHS") then Some (Member CLOTHS)
  else if bool_decide (attr = "FOOD") then Some (Member FOOD)
  else if bool_decide (attr = "TOOLS") then Some (Member TOOLS)
  else if bool_decide (attr ∈ ["__members__"; "__name__"; "__doc__"; "__module__"])
       then Some (Other attr)
  else None.

#[export] Instance enumeration : Enumeration := {|
  Category := members;
  Category_name := member_name;
  Category_getattr := getattr;
|}.

(** [data[key]] on a JSON object. *)
Fixpoint member (key : string) (l : list (string * json)) : option json :=
  match l with
  | [] => None
  | (k, v) :: l' => if bool_decide (k = key) then Some v else member key l'
  end.

(** Modelled from the spec: a [deserialize] that fails in the cases the spec
    lists for it (a required field is missing, a field has the wrong type,
    the category is not a recognised name) and otherwise replaces the
    fields.  The wording of the messages is this instance's own, and an
    integer [id] in the payload is taken over, the least favourable
    reading for the handlers. *)
Definition deserialize_fields (p : Product) (data : json) : deserialized :=
  match data with
  | JObj l =>
      match member "name" l, member "price" l, member "available" l,
            member "category" l with
      | Some (JStr n), Some (JStr pr), Some (JBool a), Some (JStr c) =>
          match getattr c with
          | Some (Member c) =>
              Valid {| id := match member "id" l with
                             | Some (JInt i) => i
                             | _ => id p
                             end;
                       name := n;
                       description := match member "description" l with
                                      | Some (JStr d) => Some d
                                      | _ => None
                                      end;
                       price := pr; available := a; category := c |}
          | _ => DataValidationError ("Invalid attribute: " +:+ c)
          end
      | None, _, _, _ => DataValidationError "Invalid product: missing name"
      | _, None, _, _ => DataValidationError "Invalid product: missing price"
      | _, _, None, _ => DataValidationError "Invalid product: missing available"
      | _, _, _, None => DataValidationError "Invalid product: missing category"
      | _, _, _, _ => DataValidationError "Invalid product: wrong type"
      end
  | _ => DataValidationError "Invalid product: body of request contained bad or no data"
  end.

#[export] Instance model_layer : ModelLayer := {|
  deserialize := deserialize_fields;
  name_matches := String.eqb;
  query_other := λ _ _, inr (500, "Internal Server Error");
|}.

Definition hat : Product :=
  {| id := 5; name := "Hat"; description := Some "warm"; price := "19.99";
     available := true; category := CLOTHS |}.
Definition bread : Product :=
  {| id := 6; name := "Bread"; description := None; price := "2.50";
     available := false; category := FOOD |}.
Definition saw : Product :=
  {| id := 7; name := "Saw"; description := Some "sharp"; price := "12";
     available := true; category := TOOLS |}.

Definition stock : world := {| table := [hat; bread; saw]; log := []; calls := [] |}.

(** [GET /products?...] *)
Definition query (l : list (string * string)) : Request :=
  {| headers := ∅; args := list_to_map l; body := None |}.

(** [PUT] with a content type and a body. *)
Definition put (content_type : string) (data : json) : Request :=
  {| headers := {["Content-Type" := content_type]}; args := ∅;
     body := Some data |}.

Definition cap : json :=
  JObj [("id", JInt 999); ("name", JStr "Cap"); ("price", JStr "9.99");
        ("available", JBool true); ("category", JStr "CLOTHS")].

(** The product that [cap] deserializes to, under the id [i]. *)
Definition cap_as (i : Z) : Product :=
  {| id := i; name := "Cap"; description := None; price := "9.99";
     available := true; category := CLOTHS |}.

Definition no_price : json :=
  JObj [("name", JStr "Cap"); ("available", JBool true);
        ("category", JStr "CLOTHS")].

End Shop.

(** ** Creating, deleting and the health check

    The remaining handlers of [routes.py].  [index] serves a static file and
    is left out. *)

(** Modelled from the spec: two more constants of
    [service/common/status.py], each the HTTP code its name carries. *)
Definition HTTP_201_CREATED : Z := 201.
Definition HTTP_204_NO_CONTENT : Z := 204.

(** What creating a product uses beyond the model layer; none of it is part
    of the sources at hand. *)
Class Creation `{ModelLayer} := {
  (** [Product()], the object that [deserialize] then fills *)
  new_product : Product;
  (** the id the store gives to the row it inserts *)
  next_id : list Product → Z;
  (** [str(data)], as it goes to the log *)
  repr : json → string;
  (** the scheme and host that [url_for(..., _external=True)] puts before
      the path *)
  url_root : string;
}.

Section Lifecycle.
Context `{Creation}.

Notation "'do' x <- m ; k" := (bind m (λ x, k))
  (at level 10, x name, m at level 100, k at level 200).
Notation "m >> k" := (bind m (λ _, k))
  (at level 10, k at level 200, only parsing).

(** The rows that do not carry the id [i]. *)
Definition other_rows (i : Z) (t : list Product) : list Product :=
  List.filter (λ p, negb (bool_decide (id p = i))) t.

(** Modelled from the spec: [Product.create] inserts the object as a new row
    under the id the store assigns, and [Product.delete] removes the row the
    object was loaded from.  Neither is entered in the trace of calls, which
    follows the queries and the update. *)
Definition Product_create (p : Product) : M instance :=
  do t <- rows;
  let i := next_id t in
  set_rows (t ++ [with_id i p]) >>
  ret {| row := i; fields := with_id i p |}.

Definition Product_delete (o : instance) : M unit :=
  do t <- rows;
  set_rows (other_rows (row o) t).

(** [url_for("get_products", product_id=i, _external=True)], the route being
    [/products/<int:product_id>]. *)
Definition url_for_get_products (product_id : Z) : string :=
  url_root +:+ "/products/" +:+ Str.of_Z product_id.

(** [GET /health] *)
Definition healthcheck : M Response :=
  jsonify (JObj [("status", JInt 200); ("message", JStr "OK")])
    status.HTTP_200_OK.

(** [POST /products]: the response and its headers. *)
Definition create_products (request : Request)
  : M (Response * list (string * string)) :=
  logger INFO "Request to Create a Product..." >>
  check_content_type request "application/json" >>
  do data <- get_json request;
  logger INFO ("Processing: " +:+ repr data) >>
  let product := new_product in
  do product <-
    match deserialize product data with
    | Valid p => ret p
    | DataValidationError error => abort status.HTTP_400_BAD_REQUEST error
    end;
  do product <- Product_create product;
  logger INFO
    ("Product with new id [" +:+ Str.of_Z (id (fields product)) +:+ "] saved!") >>
  let message := serialize (fields product) in
  let location_url := url_for_get_products (id (fields product)) in
  ret ({| payload := message; code := HTTP_201_CREATED |},
       [("Location", location_url)]).

(** [DELETE /products/<int:product_id>]: the body and the code. *)
Definition delete_products (product_id : Z) : M (string * Z) :=
  logger INFO
    ("Request to Delete Product with id [" +:+ Str.of_Z product_id +:+ "]") >>
  do product <- _get_product_or_404 product_id;
  Product_delete product >>
  ret ("", HTTP_204_NO_CONTENT).

(** The line [check_content_type] logs when it turns a request down. *)
Definition content_type_line (request : Request) : string :=
  match headers request !! "Content-Type" with
  | None => "No Content-Type specified."
  | Some received => "Invalid Content-Type: " +:+ received
  end.

End Lifecycle.

(** The shop's way of creating products. *)
Module ShopCreation.
Import Shop.

(** A rendering of the payload for the log, this instance's own. *)
Fixpoint render (j : json) : string :=
  match j with
  | JNull => "None"
  | JBool true => "True"
  | JBool false => "False"
  | JInt n => Str.of_Z n
  | JStr s => "'" +:+ s +:+ "'"
  | JList l =>
      "[" +:+ (fix items (l : list json) : string :=
                 match l with
                 | [] => ""
                 | [x] => render x
                 | x :: l' => render x +:+ ", " +:+ items l'
                 end) l +:+ "]"
  | JObj l =>
      "{" +:+ (fix items (l : list (string * json)) : string :=
                 match l with
                 | [] => ""
                 | [(k, x)] => "'" +:+ k +:+ "': " +:+ render x
                 | (k, x) :: l' =>
                     "'" +:+ k +:+ "': " +:+ render x +:+ ", " +:+ items l'
                 end) l +:+ "}"
  end.

(** One more than the largest id in the table. *)
Definition after_largest (t : list Product) : Z :=
  1 + foldr (λ p m, Z.max (id p) m) 0 t.

#[export] Instance creation : Creation := {|
  new_product :=
    {| id := 0; name := ""; description := None; price := "";
       available := false; category := CLOTHS |};
  next_id := after_largest;
  repr := render;
  url_root := "http://localhost";
|}.

(** [POST] with a content type and a body. *)
Definition post (content_type : string) (data : json) : Request :=
  {| headers := {["Content-Type" := content_type]}; args := ∅;
     body := Some data |}.

(** A request without any header, and one whose body is not JSON. *)
Definition bare (data : json) : Request :=
  {| headers := ∅; args := ∅; body := Some data |}.

Definition garbled : Request :=
  {| headers := {["Content-Type" := "application/json"]}; args := ∅;
     body := None |}.

End ShopCreation.

(** ** Facts about the string primitives *)

Example of_Z_negative : Str.of_Z (-42) = "-42".
Proof. reflexivity. Qed.

Example of_Z_zero : Str.of_Z 0 = "0".
Proof. reflexivity. Qed.

Example strip_lower_yes : Str.lower (Str.strip "  YeS ") = "yes".
Proof. reflexivity. Qed.

Lemma isspace_lower_char (c : ascii) :
  Str.isspace (Str.lower_char c) = Str.isspace c.
Proof. destruct c as [[] [] [] [] [] [] [] []]; reflexivity. Qed.

Lemma lower_lstrip (s : string) :
  Str.lower (Str.lstrip s) = Str.lstrip (Str.lower s).
Proof.
  induction s as [|c s IH]; simpl; [reflexivity|].
  rewrite isspace_lower_char. destruct (Str.isspace c); [exact IH | reflexivity].
Qed.

Lemma lower_rstrip (s : string) :
  Str.lower (Str.rstrip s) = Str.rstrip (Str.lower s).
Proof.
  induction s as [|c s IH]; simpl; [reflexivity|].
  rewrite <- IH, isspace_lower_char.
  destruct (Str.rstrip s); simpl; [|reflexivity].
  destruct (Str.isspace c); reflexivity.
Qed.

Lemma lower_strip (s : string) :
  Str.lower (Str.strip s) = Str.strip (Str.lower s).
Proof. unfold Str.strip. rewrite lower_rstrip, lower_lstrip. reflexivity. Qed.

Lemma lstrip_all_space (l s : string) :
  Str.all_space l = true → Str.lstrip (l +:+ s) = Str.lstrip s.
Proof.
  induction l as [|c l IH]; simpl; [reflexivity|].
  intros [Hc Hl]%andb_prop. rewrite Hc. auto.
Qed.

Lemma lstrip_only_space (r : string) :
  Str.all_space r = true → Str.lstrip r = "".
Proof.
  induction r as [|c r IH]; simpl; [reflexivity|].
  intros [Hc Hr]%andb_prop. rewrite Hc. auto.
Qed.

Lemma rstrip_all_space (r : string) :
  Str.all_space r = true → Str.rstrip r = "".
Proof.
  induction r as [|c r IH]; simpl; [reflexivity|].
  intros [Hc Hr]%andb_prop. rewrite (IH Hr), Hc. reflexivity.
Qed.

Lemma rstrip_app_space (s r : string) :
  Str.all_space r = true → Str.rstrip (s +:+ r) = Str.rstrip s.
Proof.
  intros Hr. induction s as [|c s IH]; simpl.
  - apply rstrip_all_space, Hr.
  - rewrite IH. reflexivity.
Qed.

Lemma strip_app_space (s r : string) :
  Str.all_space r = true → Str.strip (s +:+ r) = Str.strip s.
Proof.
  intros Hr. unfold Str.strip. induction s as [|c s IH]; simpl.
  - change ("" +:+ r) with r. rewrite (lstrip_only_space r Hr). reflexivity.
  - destruct (Str.isspace c); [exact IH|].
    apply (rstrip_app_space (String c s) r Hr).
Qed.

Lemma strip_padding (l s r : string) :
  Str.all_space l = true → Str.all_space r = true →
  Str.strip (l +:+ s +:+ r) = Str.strip s.
Proof.
  intros Hl Hr. unfold Str.strip at 1. rewrite (lstrip_all_space _ _ Hl).
  apply (strip_app_space s r Hr).
Qed.

Lemma startswith_app (p s : string) :
  Str.startswith p s = true ↔ ∃ post, s = p +:+ post.
Proof.
  revert s. induction p as [|c p IH]; intros s; simpl.
  - split; [eauto | reflexivity].
  - destruct s as [|d s].
    + split; [discriminate | intros [post Hp]; discriminate].
    + rewrite andb_true_iff, bool_decide_eq_true, IH. split.
      * intros [-> [post ->]]. eauto.
      * intros [post Hp]. injection Hp as -> ->. eauto.
Qed.

Lemma contains_includes (part msg : string) :
  Str.contains part msg = true ↔ includes msg part.
Proof.
  unfold includes. induction msg as [|c msg IH]; simpl.
  - rewrite orb_false_r, startswith_app. split.
    + intros [post Hp]. exists "", post. exact Hp.
    + intros (pre & post & Hp). destruct pre; [eauto | discriminate].
  - rewrite orb_true_iff, startswith_app, IH. split.
    + intros [[post Hp] | (pre & post & Hp)].
      * exists "", post. exact Hp.
      * exists (String c pre), post. simpl. rewrite Hp. reflexivity.
    + intros (pre & post & Hp). destruct pre as [|d pre].
      * left. exists post. exact Hp.
      * right. exists pre, post. simpl in Hp. injection Hp as _ Hp. exact Hp.
Qed.

(** ** The boolean query parameter *)

Lemma parse_bool_param_lower (s : string) :
  _parse_bool_param (Some (Str.lower s)) = _parse_bool_param (Some s).
Proof.
  unfold _parse_bool_param. rewrite <- lower_strip.
  assert (Hidem : ∀ t, Str.lower (Str.lower t) = Str.lower t).
  { induction t as [|c t IH]; simpl; [reflexivity|]. rewrite IH. f_equal.
    destruct c as [[] [] [] [] [] [] [] []]; reflexivity. }
  rewrite Hidem. reflexivity.
Qed.

Lemma tokens_disjoint (v : string) :
  v ∈ ["true"; "1"; "yes"; "y"; "t"] → v ∈ ["false"; "0"; "no"; "n"; "f"] →
  False.
Proof.
  intros Ht Hf. rewrite !elem_of_cons, elem_of_nil in Ht, Hf.
  destruct Ht as [->|[->|[->|[->|[->|[]]]]]]; intuition discriminate.
Qed.

Lemma parse_bool_param_cases (s : string) :
  let v := Str.lower (Str.strip s) in
  (v ∈ ["true"; "1"; "yes"; "y"; "t"] ∧ _parse_bool_param (Some s) = Some true)
  ∨ (v ∈ ["false"; "0"; "no"; "n"; "f"]
     ∧ _parse_bool_param (Some s) = Some false)
  ∨ ((v ∉ ["true"; "1"; "yes"; "y"; "t"])
     ∧ (v ∉ ["false"; "0"; "no"; "n"; "f"])
     ∧ _parse_bool_param (Some s) = None).
Proof.
  intros v. unfold _parse_bool_param. fold v.
  destruct (decide (v ∈ ["true"; "1"; "yes"; "y"; "t"])) as [Ht|Ht].
  - left. rewrite (bool_decide_eq_true_2 _ Ht). auto.
  - rewrite (bool_decide_eq_false_2 _ Ht).
    destruct (decide (v ∈ ["false"; "0"; "no"; "n"; "f"])) as [Hf|Hf].
    + right; left. rewrite (bool_decide_eq_true_2 _ Hf). auto.
    + right; right. rewrite (bool_decide_eq_false_2 _ Hf). auto.
Qed.

(** C7: the parser trims and lowercases its input, answers true exactly on
    the tokens true, 1, yes, y, t and false exactly on false, 0, no, n, f,
    and answers [None] on every other string; it does not tell apart two
    strings that differ in case only, nor a string and the same string with
    whitespace around it. *)
Theorem parse_bool_param_tokens (s : string) :
  (_parse_bool_param (Some s) = Some true ↔
     Str.lower (Str.strip s) ∈ ["true"; "1"; "yes"; "y"; "t"]) ∧
  (_parse_bool_param (Some s) = Some false ↔
     Str.lower (Str.strip s) ∈ ["false"; "0"; "no"; "n"; "f"]) ∧
  (_parse_bool_param (Some s) = None ↔
     Str.lower (Str.strip s)
       ∉ ["true"; "1"; "yes"; "y"; "t"; "false"; "0"; "no"; "n"; "f"]) ∧
  (∀ s', Str.lower s' = Str.lower s →
     _parse_bool_param (Some s') = _parse_bool_param (Some s)) ∧
  (∀ l r, Str.all_space l = true → Str.all_space r = true →
     _parse_bool_param (Some (l +:+ s +:+ r)) = _parse_bool_param (Some s)).
Proof.
  change ["true"; "1"; "yes"; "y"; "t"; "false"; "0"; "no"; "n"; "f"]
    with (["true"; "1"; "yes"; "y"; "t"] ++ ["false"; "0"; "no"; "n"; "f"]).
  rewrite elem_of_app.
  pose proof (tokens_disjoint (Str.lower (Str.strip s))) as Hd.
  split; [|split; [|split; [|split]]].
  - destruct (parse_bool_param_cases s) as [[Ht E]|[[Hf E]|(Ht & Hf & E)]];
      rewrite E; split; intros; congruence || tauto.
  - destruct (parse_bool_param_cases s) as [[Ht E]|[[Hf E]|(Ht & Hf & E)]];
      rewrite E; split; intros; congruence || tauto.
  - destruct (parse_bool_param_cases s) as [[Ht E]|[[Hf E]|(Ht & Hf & E)]];
      rewrite E; split; intros; congruence || tauto.
  - intros s' Hs'. rewrite <- (parse_bool_param_lower s'), Hs'.
    apply parse_bool_param_lower.
  - intros l r Hl Hr. unfold _parse_bool_param.
    rewrite (strip_padding l s r Hl Hr). reflexivity.
Qed.

Lemma parse_bool_param_tokens_witness :
  _parse_bool_param (Some ("  " +:+ "YeS" +:+ " ")) = Some true
  ∧ _parse_bool_param (Some "yEs") = _parse_bool_param (Some "YeS").
Proof.
  destruct (parse_bool_param_tokens "YeS") as (Ht & _ & _ & Hcase & Hpad).
  split.
  - rewrite Hpad by reflexivity. apply Ht.
    apply (bool_decide_unpack _). reflexivity.
  - apply Hcase. reflexivity.
Defined.

Lemma append_empty_r (s : string) : s +:+ "" = s.
Proof.
  induction s as [|c s IH]; [reflexivity|].
  change (String c (s +:+ "") = String c s). rewrite IH. reflexivity.
Qed.

Lemma includes_tail (pre s : string) : includes (pre +:+ s) s.
Proof. exists pre, "". rewrite append_empty_r. reflexivity. Qed.

(** ** The handlers *)

Section Properties.
Context `{ModelLayer}.

Implicit Types (request : Request) (w : world).

(** Unfolds a handler down to the monad's plumbing. *)
Ltac run :=
  unfold list_products, update_products, get_products, _get_product_or_404,
    check_content_type, get_json, jsonify, Product_find,
    Product_find_by_name, Product_find_by_category,
    Product_find_by_availability, Product_all, Product_update,
    bind, ret, abort, logger, called, rows, set_rows;
  cbv zeta.

(** *** Listing, tier by tier *)

Lemma list_products_by_name request w (n : string) :
  args request !! "name" = Some n → n ≠ "" →
  list_products request w =
    (after_call (FindByName n) (logged INFO "Request to list Products..." w),
     Done (listing (List.filter (λ p, name_matches n (name p)) (table w)))).
Proof.
  intros Hn Hne. run. rewrite Hn.
  destruct n as [|c n]; [congruence | reflexivity].
Qed.

Lemma list_products_by_category request w (s : string) :
  absent_or_empty (args request !! "name") →
  args request !! "category" = Some s → s ≠ "" →
  list_products request w =
    let w1 := logged INFO "Request to list Products..." w in
    match Category_getattr s with
    | None => (w1, Aborted 400 ("Invalid category: " +:+ s))
    | Some (Member c) =>
        (after_call (FindByCategory (Member c)) w1,
         Done (listing
                 (List.filter (λ p, bool_decide (category p = c)) (table w))))
    | Some (Other a) =>
        let w2 := after_call (FindByCategory (Other a)) w1 in
        match query_other a (table w) with
        | inl r => (w2, Done (listing r))
        | inr (c, d) => (w2, Aborted c d)
        end
    end.
Proof.
  intros Hn Hc Hne. run. rewrite Hc.
  destruct s as [|a s]; [congruence|].
  destruct Hn as [-> | ->];
    (destruct (Category_getattr (String a s)) as [[c|o]|]; cbn;
     [reflexivity | | reflexivity];
     destruct (query_other o (table w)) as [r|[c d]]; reflexivity).
Qed.

Lemma list_products_by_availability request w (v : string) :
  absent_or_empty (args request !! "name") →
  absent_or_empty (args request !! "category") →
  args request !! "available" = Some v →
  list_products request w =
    let w1 := logged INFO "Request to list Products..." w in
    match _parse_bool_param (Some v) with
    | None => (w1, Aborted 400 ("Invalid availability: " +:+ v))
    | Some b =>
        (after_call (FindByAvailability b) w1,
         Done (listing
                 (List.filter (λ p, bool_decide (available p = b)) (table w))))
    end.
Proof.
  intros Hn Hc Hv. run. rewrite Hv.
  destruct Hn as [-> | ->], Hc as [-> | ->];
    destruct (_parse_bool_param (Some v)) as [b|]; reflexivity.
Qed.

Lemma list_products_unfiltered request w :
  absent_or_empty (args request !! "name") →
  absent_or_empty (args request !! "category") →
  args request !! "available" = None →
  list_products request w =
    (after_call All (logged INFO "Request to list Products..." w),
     Done (listing (table w))).
Proof.
  intros Hn Hc Hv. run. rewrite Hv.
  destruct Hn as [-> | ->], Hc as [-> | ->]; reflexivity.
Qed.

(** What the listing asks of the persistence layer: one query at most,
    and none by name unless a name was given. *)
Lemma list_products_calls request w :
  ∃ l, calls (list_products request w).1 = calls w ++ l
       ∧ (length l ≤ 1)%nat
       ∧ (absent_or_empty (args request !! "name") →
          ∀ n, FindByName n ∉ l).
Proof.
  assert (Hdec : ∀ o : option string,
             absent_or_empty o ∨ ∃ v, o = Some v ∧ v ≠ "").
  { intros [[|c v]|]; [left; right | right; eexists; split | left; left];
      done. }
  assert (Hnil : ∀ l0 : list db_call, l0 = l0 ++ [])
    by (intros; rewrite app_nil_r; reflexivity).
  destruct (Hdec (args request !! "name")) as [Hn|(n & Hn & Hne)].
  - destruct (Hdec (args request !! "category")) as [Hc|(c & Hc & Hce)].
    + destruct (args request !! "available") as [v|] eqn:Hv.
      * rewrite (list_products_by_availability request w v Hn Hc Hv). cbv zeta.
        destruct (_parse_bool_param (Some v)) as [b|].
        -- exists [FindByAvailability b]. repeat split; [cbn; lia|].
           intros _ m [E|E]%elem_of_cons; [discriminate | by inversion E].
        -- exists []. repeat split; [apply Hnil | cbn; lia|].
           intros _ m E. by inversion E.
      * rewrite (list_products_unfiltered request w Hn Hc Hv).
        exists [All]. repeat split; [cbn; lia|].
        intros _ m [E|E]%elem_of_cons; [discriminate | by inversion E].
    + rewrite (list_products_by_category request w c Hn Hc Hce). cbv zeta.
      destruct (Category_getattr c) as [[m|o]|].
      * exists [FindByCategory (Member m)]. repeat split; [cbn; lia|].
        intros _ k [E|E]%elem_of_cons; [discriminate | by inversion E].
      * exists [FindByCategory (Other o)].
        destruct (query_other o (table w)) as [r|[k d]];
          (repeat split; [cbn; lia|]);
          intros _ k' [E|E]%elem_of_cons; solve [discriminate | by inversion E].
      * exists []. repeat split; [apply Hnil | cbn; lia|].
        intros _ m E. by inversion E.
  - rewrite (list_products_by_name request w n Hn Hne).
    exists [FindByName n]. repeat split; [cbn; lia|].
    intros [Hn'|Hn']; congruence.
Qed.

(** *** Updating *)

Lemma find_row_none (i : Z) (t : list Product) :
  (∀ prod, prod ∈ t → id prod ≠ i) → find_row i t = None.
Proof.
  unfold find_row. induction t as [|q t IH]; intros Hall; [reflexivity|].
  cbn. rewrite bool_decide_eq_false_2 by (apply Hall; left).
  apply IH. intros prod Hin. apply Hall. right. exact Hin.
Qed.

Lemma find_row_write (i : Z) (old new : Product) (t : list Product) :
  find_row i t = Some old → id new = i →
  find_row i (write_row i new t) = Some new.
Proof.
  unfold find_row, write_row. intros Hfind Hid.
  induction t as [|q t IH]; [discriminate|]. cbn in *.
  destruct (bool_decide (id q = i)) eqn:Hq.
  - rewrite (bool_decide_eq_true_2 _ Hid). reflexivity.
  - rewrite Hq. apply IH, Hfind.
Qed.

Lemma update_products_json request (p : Z) w :
  headers request !! "Content-Type" = Some "application/json" →
  update_products request p w =
    let w1 :=
      after_call (Find p)
        (logged INFO
           ("Request to Update Product with id [" +:+ Str.of_Z p +:+ "]") w) in
    match find_row p (table w) with
    | None =>
        (w1, Aborted 404
               ("Product with id '" +:+ Str.of_Z p +:+ "' was not found."))
    | Some prod =>
        match body request with
        | None => (w1, Aborted 400 bad_request)
        | Some data =>
            match deserialize prod data with
            | DataValidationError e => (w1, Aborted 400 e)
            | Valid prod' =>
                ({| table := write_row p (with_id p prod') (table w);
                    log := log w1;
                    calls := calls w1 ++ [Update p] |},
                 Done {| payload := serialize (with_id p prod'); code := 200 |})
            end
        end
    end.
Proof.
  intros Hct. run. rewrite Hct, bool_decide_eq_true_2 by reflexivity.
  unfold find_row. cbn.
  destruct (List.find _ (table w)) as [prod|]; cbn; [|reflexivity].
  destruct (body request) as [data|]; cbn; [|reflexivity].
  destruct (deserialize prod data) as [prod'|e]; reflexivity.
Qed.

(** *** The content-type guard *)

(** C2, as the code has it: without a Content-Type header the guard aborts
    with 415 and a message naming the required type [t]; with a header
    different from [t] it aborts with 415 and the very same message, the
    received type going to the server log only; with a header equal to [t]
    it returns and leaves the world as it was. *)
Theorem check_content_type_guard request (t : string) w :
  (headers request !! "Content-Type" = None →
     check_content_type request t w =
       (logged ERROR "No Content-Type specified." w,
        Aborted 415 ("Content-Type must be " +:+ t)))
  ∧ (∀ received,
       headers request !! "Content-Type" = Some received → received ≠ t →
       check_content_type request t w =
         (logged ERROR ("Invalid Content-Type: " +:+ received) w,
          Aborted 415 ("Content-Type must be " +:+ t)))
  ∧ (headers request !! "Content-Type" = Some t →
       check_content_type request t w = (w, Done tt))
  ∧ includes ("Content-Type must be " +:+ t) t.
Proof.
  split; [|split; [|split]].
  - intros Hh. run. rewrite Hh. reflexivity.
  - intros received Hh Hne. run. rewrite Hh.
    rewrite (bool_decide_eq_false_2 _ Hne). reflexivity.
  - intros Hh. run. rewrite Hh.
    rewrite bool_decide_eq_true_2 by reflexivity. reflexivity.
  - apply includes_tail.
Qed.

(** *** The list handler *)

(** C3, as the code has it: the parser answers [None] for an absent
    parameter and the same [None] for a token it does not recognise; it is
    the list handler that tells the two apart, by calling the parser only
    when the parameter is present: without the parameter every product is
    listed, with an unrecognised token the request is rejected with 400. *)
Theorem parse_bool_param_absent_invalid request w (s : string) :
  _parse_bool_param None = None
  ∧ (Str.lower (Str.strip s)
       ∉ ["true"; "1"; "yes"; "y"; "t"; "false"; "0"; "no"; "n"; "f"] →
     _parse_bool_param (Some s) = _parse_bool_param None)
  ∧ (absent_or_empty (args request !! "name") →
     absent_or_empty (args request !! "category") →
     (args request !! "available" = None →
        list_products request w =
          (after_call All (logged INFO "Request to list Products..." w),
           Done (listing (table w))))
     ∧ (args request !! "available" = Some s →
        _parse_bool_param (Some s) = None →
        list_products request w =
          (logged INFO "Request to list Products..." w,
           Aborted 400 ("Invalid availability: " +:+ s)))).
Proof.
  split; [reflexivity|]. split.
  - change ["true"; "1"; "yes"; "y"; "t"; "false"; "0"; "no"; "n"; "f"]
      with (["true"; "1"; "yes"; "y"; "t"] ++ ["false"; "0"; "no"; "n"; "f"]).
    rewrite elem_of_app. intros Hnot.
    destruct (parse_bool_param_cases s) as [[Ht _]|[[Hf _]|(_ & _ & E)]];
      [tauto | tauto | exact E].
  - intros Hn Hc. split.
    + apply list_products_unfiltered; assumption.
    + intros Hv Hp.
      rewrite (list_products_by_availability request w s Hn Hc Hv).
      cbv zeta. rewrite Hp. reflexivity.
Qed.

(** C1, as the code has it: with no name filter selected and a non-empty
    [category] value [s], the handler answers 400 with a message naming [s]
    when the lookup of [s] on the enumeration fails, and answers 200 with
    exactly the products of category [c] when [s] names the member [c]; an
    empty [category] value selects no category filter at all. *)
Theorem list_products_category request w (s : string) :
  absent_or_empty (args request !! "name") →
  args request !! "category" = Some s →
  (s ≠ "" → Category_getattr s = None →
     list_products request w =
       (logged INFO "Request to list Products..." w,
        Aborted 400 ("Invalid category: " +:+ s))
     ∧ includes ("Invalid category: " +:+ s) s)
  ∧ (∀ c, s ≠ "" → Category_getattr s = Some (Member c) →
       list_products request w =
         (after_call (FindByCategory (Member c))
            (logged INFO "Request to list Products..." w),
          Done (listing
                  (List.filter (λ p, bool_decide (category p = c)) (table w))))
       ∧ Forall (λ p, category p = c)
           (List.filter (λ p, bool_decide (category p = c)) (table w)))
  ∧ (s = "" → list_products request w = list_products (without "category" request) w).
Proof.
  intros Hn Hc. split; [|split].
  - intros Hne Hg. split; [|apply includes_tail].
    rewrite (list_products_by_category request w s Hn Hc Hne).
    cbv zeta. rewrite Hg. reflexivity.
  - intros c Hne Hg. split.
    + rewrite (list_products_by_category request w s Hn Hc Hne).
      cbv zeta. rewrite Hg. reflexivity.
    + apply Forall_forall. intros q Hq.
      apply list_elem_of_In, filter_In in Hq as [_ Hq].
      apply bool_decide_eq_true in Hq. exact Hq.
  - intros ->.
    assert (Hc' : absent_or_empty (args request !! "category"))
      by (right; exact Hc).
    assert (Hn' : absent_or_empty (args (without "category" request) !! "name"))
      by (cbn; rewrite lookup_delete_ne by discriminate; exact Hn).
    assert (Hd : absent_or_empty (args (without "category" request) !! "category"))
      by (left; cbn; apply lookup_delete_eq).
    destruct (args request !! "available") as [v|] eqn:Hv.
    + rewrite (list_products_by_availability request w v Hn Hc' Hv).
      rewrite (list_products_by_availability (without "category" request) w v
                 Hn' Hd); [reflexivity|].
      cbn. rewrite lookup_delete_ne by discriminate. exact Hv.
    + rewrite (list_products_unfiltered request w Hn Hc' Hv).
      rewrite (list_products_unfiltered (without "category" request) w Hn' Hd);
        [reflexivity|].
      cbn. rewrite lookup_delete_ne by discriminate. exact Hv.
Qed.

(** C4: whatever the combination of [name], [category] and [available], one
    filter at most is applied, chosen name before category before available.
    A non-empty name gives the products matching the name, whatever category
    and available are.  Without a name, a non-empty category gives the answer
    of the category filter (400 for a value that is no attribute of the
    enumeration, the products of the member otherwise), whatever available
    is.  With neither, a present available gives the answer of the
    availability filter (400 for a value that is no boolean, the products
    with that availability otherwise).  With none of the three every stored
    product is returned.  In each case the answer is that of the request
    carrying the winning parameter alone, and the persistence layer is
    queried once at most. *)
Theorem list_products_precedence request w :
  (∀ n, args request !! "name" = Some n → n ≠ "" →
     list_products request w = list_products (only "name" n) w
     ∧ list_products request w =
         (after_call (FindByName n)
            (logged INFO "Request to list Products..." w),
          Done (listing
                  (List.filter (λ p, name_matches n (name p)) (table w)))))
  ∧ (∀ c, absent_or_empty (args request !! "name") →
       args request !! "category" = Some c → c ≠ "" →
       list_products request w = list_products (only "category" c) w
       ∧ list_products request w =
           match Category_getattr c with
           | None =>
               (logged INFO "Request to list Products..." w,
                Aborted 400 ("Invalid category: " +:+ c))
           | Some (Member m) =>
               (after_call (FindByCategory (Member m))
                  (logged INFO "Request to list Products..." w),
                Done (listing
                        (List.filter (λ p, bool_decide (category p = m))
                           (table w))))
           | Some (Other o) =>
               match query_other o (table w) with
               | inl r =>
                   (after_call (FindByCategory (Other o))
                      (logged INFO "Request to list Products..." w),
                    Done (listing r))
               | inr (k, d) =>
                   (after_call (FindByCategory (Other o))
                      (logged INFO "Request to list Products..." w),
                    Aborted k d)
               end
           end)
  ∧ (∀ a, absent_or_empty (args request !! "name") →
       absent_or_empty (args request !! "category") →
       args request !! "available" = Some a →
       list_products request w = list_products (only "available" a) w
       ∧ list_products request w =
           match _parse_bool_param (Some a) with
           | None =>
               (logged INFO "Request to list Products..." w,
                Aborted 400 ("Invalid availability: " +:+ a))
           | Some b =>
               (after_call (FindByAvailability b)
                  (logged INFO "Request to list Products..." w),
                Done (listing
                        (List.filter (λ p, bool_decide (available p = b))
                           (table w))))
           end)
  ∧ (absent_or_empty (args request !! "name") →
     absent_or_empty (args request !! "category") →
     args request !! "available" = None →
     list_products request w =
       (after_call All (logged INFO "Request to list Products..." w),
        Done (listing (table w))))
  ∧ (∃ l, calls (list_products request w).1 = calls w ++ l
          ∧ (length l ≤ 1)%nat).
Proof.
  split; [|split; [|split; [|split]]].
  - intros n Hn Hne. split.
    + rewrite (list_products_by_name request w n Hn Hne).
      rewrite (list_products_by_name (only "name" n) w n); [reflexivity| |exact Hne].
      apply lookup_singleton_eq.
    + apply list_products_by_name; assumption.
  - intros c Hn Hc Hne. split.
    + rewrite (list_products_by_category request w c Hn Hc Hne).
      rewrite (list_products_by_category (only "category" c) w c);
        [reflexivity | | | exact Hne].
      * left. apply lookup_singleton_ne. discriminate.
      * apply lookup_singleton_eq.
    + rewrite (list_products_by_category request w c Hn Hc Hne). cbv zeta.
      destruct (Category_getattr c) as [[m|o]|]; reflexivity.
  - intros a Hn Hc Ha. split.
    + rewrite (list_products_by_availability request w a Hn Hc Ha).
      rewrite (list_products_by_availability (only "available" a) w a);
        [reflexivity | | | ].
      * left. apply lookup_singleton_ne. discriminate.
      * left. apply lookup_singleton_ne. discriminate.
      * apply lookup_singleton_eq.
    + apply (list_products_by_availability request w a Hn Hc Ha).
  - apply list_products_unfiltered.
  - destruct (list_products_calls request w) as (l & Hl & Hlen & _).
    exists l. split; assumption.
Qed.

(** C8: when the [available] key is present, with the empty string or any
    other value, and neither a name nor a category filter is selected, a
    value that parses to neither true nor false is answered with 400 and a
    message naming it, and a value that parses to true is answered with
    the products whose [available] field is true, and only those. *)
Theorem list_products_available request w (v : string) :
  absent_or_empty (args request !! "name") →
  absent_or_empty (args request !! "category") →
  args request !! "available" = Some v →
  (_parse_bool_param (Some v) = None →
     list_products request w =
       (logged INFO "Request to list Products..." w,
        Aborted 400 ("Invalid availability: " +:+ v))
     ∧ includes ("Invalid availability: " +:+ v) v)
  ∧ (_parse_bool_param (Some v) = Some true →
     list_products request w =
       (after_call (FindByAvailability true)
          (logged INFO "Request to list Products..." w),
        Done (listing
                (List.filter (λ p, bool_decide (available p = true)) (table w))))
     ∧ Forall (λ p, available p = true)
         (List.filter (λ p, bool_decide (available p = true)) (table w)))
  ∧ (v = "" → _parse_bool_param (Some v) = None).
Proof.
  intros Hn Hc Hv. split; [|split].
  - intros Hp. split; [|apply includes_tail].
    rewrite (list_products_by_availability request w v Hn Hc Hv).
    cbv zeta. rewrite Hp. reflexivity.
  - intros Hp. split.
    + rewrite (list_products_by_availability request w v Hn Hc Hv).
      cbv zeta. rewrite Hp. reflexivity.
    + apply Forall_forall. intros q Hq.
      apply list_elem_of_In, filter_In in Hq as [_ Hq].
      apply bool_decide_eq_true in Hq. exact Hq.
  - intros ->. reflexivity.
Qed.

(** C9: a [name] parameter given with the empty string is treated as no
    name filter: the answer is that of the same request without the
    parameter, and the persistence layer is never queried by name; an
    [available] parameter given with the empty string is, in contrast,
    parsed and rejected with 400. *)
Theorem list_products_empty_name request w :
  args request !! "name" = Some "" →
  list_products request w = list_products (without "name" request) w
  ∧ (∀ n, FindByName n ∉ calls w →
          FindByName n ∉ calls (list_products request w).1)
  ∧ (absent_or_empty (args request !! "category") →
     args request !! "available" = Some "" →
     list_products request w =
       (logged INFO "Request to list Products..." w,
        Aborted 400 "Invalid availability: ")).
Proof.
  intros Hname.
  assert (Hn : absent_or_empty (args request !! "name")) by (right; exact Hname).
  assert (Hn' : absent_or_empty (args (without "name" request) !! "name"))
    by (left; cbn; apply lookup_delete_eq).
  assert (Hother : ∀ k, k ≠ "name" →
            args (without "name" request) !! k = args request !! k)
    by (intros k Hk; cbn; apply lookup_delete_ne; congruence).
  split; [|split].
  - destruct (args request !! "category") as [[|a c]|] eqn:Hc.
    2: { rewrite (list_products_by_category request w (String a c) Hn Hc)
           by discriminate.
         rewrite (list_products_by_category (without "name" request) w
                    (String a c) Hn'); [reflexivity | | discriminate].
         rewrite Hother by discriminate. exact Hc. }
    all: assert (Hc0 : absent_or_empty (args request !! "category"))
           by (rewrite Hc; (by left) || (by right)).
    all: assert (Hc' : absent_or_empty (args (without "name" request) !! "category"))
           by (rewrite Hother by discriminate; exact Hc0).
    all: destruct (args request !! "available") as [v|] eqn:Hv.
    all: first
           [ rewrite (list_products_by_availability request w v Hn Hc0 Hv);
             rewrite (list_products_by_availability (without "name" request) w
                        v Hn' Hc'); [reflexivity|];
             rewrite Hother by discriminate; rewrite <- Hv; reflexivity
           | rewrite (list_products_unfiltered request w Hn Hc0 Hv);
             rewrite (list_products_unfiltered (without "name" request) w
                        Hn' Hc'); [reflexivity|];
             rewrite Hother by discriminate; rewrite <- Hv; reflexivity ].
  - intros n Hfresh.
    destruct (list_products_calls request w) as (l & Hl & _ & Hno).
    rewrite Hl, elem_of_app. intros [Hin|Hin]; [exact (Hfresh Hin)|].
    exact (Hno Hn n Hin).
  - intros Hc Hv.
    rewrite (list_products_by_availability request w "" Hn Hc Hv). reflexivity.
Qed.

(** *** The update handler *)

(** C5: for an existing product id [p] and a payload that deserializes,
    whatever [id] the deserialized record carries, the update answers 200
    with a record whose [id] is [p], and the table then holds that very
    record under [p], as a retrieval of [p] shows. *)
Theorem update_products_pins_id request (p : Z) w
    (prod prod' : Product) (data : json) :
  headers request !! "Content-Type" = Some "application/json" →
  find_row p (table w) = Some prod →
  body request = Some data →
  deserialize prod data = Valid prod' →
  ∃ w' rest,
    update_products request p w =
      (w', Done {| payload := JObj (("id", JInt p) :: rest); code := 200 |})
    ∧ serialize (with_id p prod') = JObj (("id", JInt p) :: rest)
    ∧ id (with_id p prod') = p
    ∧ find_row p (table w') = Some (with_id p prod')
    ∧ (get_products p w').2 =
        Done {| payload := JObj (("id", JInt p) :: rest); code := 200 |}.
Proof.
  intros Hct Hfind Hbody Hvalid.
  rewrite (update_products_json request p w Hct). cbv zeta.
  rewrite Hfind, Hbody, Hvalid.
  eexists _, _. split; [reflexivity|]. split; [reflexivity|].
  split; [reflexivity|].
  assert (Hw : find_row p (write_row p (with_id p prod') (table w))
               = Some (with_id p prod'))
    by (apply (find_row_write p prod); [exact Hfind | reflexivity]).
  split; [exact Hw|].
  run. cbn. fold (find_row p (write_row p (with_id p prod') (table w))).
  rewrite Hw. reflexivity.
Qed.

(** C6: a JSON update addressed to an id that no stored product has is
    answered with 404 and a message that includes the id, whatever the body
    of the request is: the lookup comes before the body is read. *)
Theorem update_products_missing request (p : Z) w :
  headers request !! "Content-Type" = Some "application/json" →
  (∀ prod, prod ∈ table w → id prod ≠ p) →
  update_products request p w =
    (after_call (Find p)
       (logged INFO
          ("Request to Update Product with id [" +:+ Str.of_Z p +:+ "]") w),
     Aborted 404 ("Product with id '" +:+ Str.of_Z p +:+ "' was not found."))
  ∧ includes ("Product with id '" +:+ Str.of_Z p +:+ "' was not found.")
      (Str.of_Z p).
Proof.
  intros Hct Hnone. split.
  - rewrite (update_products_json request p w Hct). cbv zeta.
    rewrite (find_row_none p (table w) Hnone). reflexivity.
  - exists "Product with id '", "' was not found.". reflexivity.
Qed.

(** C10: when the payload of an update fails validation, the handler aborts
    with 400 and the error's message; the table is as it was and the
    persistence layer was asked for the lookup only, never for an update. *)
Theorem update_products_invalid request (p : Z) w
    (prod : Product) (data : json) (error : string) :
  headers request !! "Content-Type" = Some "application/json" →
  find_row p (table w) = Some prod →
  body request = Some data →
  deserialize prod data = DataValidationError error →
  ∃ w',
    update_products request p w = (w', Aborted 400 error)
    ∧ table w' = table w
    ∧ calls w' = calls w ++ [Find p]
    ∧ find_row p (table w') = Some prod.
Proof.
  intros Hct Hfind Hbody Hinvalid.
  rewrite (update_products_json request p w Hct). cbv zeta.
  rewrite Hfind, Hbody, Hinvalid.
  eexists. split; [reflexivity|]. repeat split. exact Hfind.
Qed.

End Properties.

(** ** The handlers beyond the claims: retrieval, update, creation, deletion *)

Section LifecycleProperties.
Context `{Creation}.

Implicit Types (request : Request) (w : world) (t : list Product).

Ltac run :=
  unfold list_products, update_products, get_products, create_products,
    delete_products, healthcheck, _get_product_or_404,
    check_content_type, get_json, jsonify, Product_find,
    Product_find_by_name, Product_find_by_category,
    Product_find_by_availability, Product_all, Product_update,
    Product_create, Product_delete,
    bind, ret, abort, logger, called, rows, set_rows;
  cbv zeta.

(** *** Rows *)

Lemma find_row_some (i : Z) t (prod : Product) :
  find_row i t = Some prod → prod ∈ t ∧ id prod = i.
Proof.
  unfold find_row. intros Hfind. apply find_some in Hfind as [Hin Hid].
  split; [apply list_elem_of_In, Hin | apply bool_decide_eq_true in Hid; exact Hid].
Qed.

Lemma find_row_is_none (i : Z) t :
  find_row i t = None → ∀ prod, prod ∈ t → id prod ≠ i.
Proof.
  unfold find_row. intros Hfind prod Hin%list_elem_of_In.
  apply (find_none _ _ Hfind), bool_decide_eq_false in Hin. exact Hin.
Qed.

Lemma map_id_write_row (i : Z) (new : Product) t :
  id new = i → List.map id (write_row i new t) = List.map id t.
Proof.
  intros Hid. unfold write_row. induction t as [|q t IH]; [reflexivity|].
  cbn. rewrite IH. f_equal. case_bool_decide; congruence.
Qed.

Lemma other_rows_write_row (i : Z) (new : Product) t :
  id new = i → other_rows i (write_row i new t) = other_rows i t.
Proof.
  intros Hid. unfold other_rows, write_row.
  induction t as [|q t IH]; [reflexivity|]. cbn.
  destruct (bool_decide (id q = i)) eqn:Hq; cbn.
  - rewrite (bool_decide_eq_true_2 _ Hid). cbn. exact IH.
  - rewrite Hq. cbn. rewrite IH. reflexivity.
Qed.

Lemma other_rows_none (i : Z) t :
  (∀ prod, prod ∈ t → id prod ≠ i) → other_rows i t = t.
Proof.
  unfold other_rows. induction t as [|q t IH]; intros Hall; [reflexivity|].
  cbn. rewrite bool_decide_eq_false_2 by (apply Hall; left). cbn.
  rewrite IH; [reflexivity|]. intros prod Hin. apply Hall. right. exact Hin.
Qed.

Lemma other_rows_free (i : Z) t (prod : Product) :
  prod ∈ other_rows i t → id prod ≠ i.
Proof.
  unfold other_rows. intros Hin%list_elem_of_In%filter_In.
  destruct Hin as [_ Hid]. apply negb_true_iff, bool_decide_eq_false in Hid.
  exact Hid.
Qed.

Lemma find_row_other_rows (i q : Z) t :
  q ≠ i → find_row q (other_rows i t) = find_row q t.
Proof.
  intros Hne. unfold find_row, other_rows.
  induction t as [|r t IH]; [reflexivity|]. cbn.
  destruct (bool_decide (id r = i)) eqn:Hr; cbn.
  - apply bool_decide_eq_true in Hr.
    rewrite bool_decide_eq_false_2 by congruence. exact IH.
  - destruct (bool_decide (id r = q)); [reflexivity | exact IH].
Qed.

Lemma find_row_app_old (q : Z) t (prod new : Product) :
  find_row q t = Some prod → find_row q (t ++ [new]) = Some prod.
Proof.
  unfold find_row. induction t as [|r t IH]; [discriminate|]. cbn.
  destruct (bool_decide (id r = q)); [trivial | exact IH].
Qed.

Lemma find_row_app_fresh (i : Z) t (new : Product) :
  (∀ prod, prod ∈ t → id prod ≠ i) → id new = i →
  find_row i (t ++ [new]) = Some new.
Proof.
  unfold find_row. intros Hall Hid. induction t as [|r t IH]; cbn.
  - rewrite (bool_decide_eq_true_2 _ Hid). reflexivity.
  - rewrite bool_decide_eq_false_2 by (apply Hall; left).
    apply IH. intros prod Hin. apply Hall. right. exact Hin.
Qed.

(** *** The handlers, branch by branch *)

Lemma get_products_run (p : Z) w :
  get_products p w =
    let w1 :=
      after_call (Find p)
        (logged INFO
           ("Request to Retrieve Product with id [" +:+ Str.of_Z p +:+ "]") w) in
    match find_row p (table w) with
    | Some prod => (w1, Done {| payload := serialize prod; code := 200 |})
    | None =>
        (w1, Aborted 404
               ("Product with id '" +:+ Str.of_Z p +:+ "' was not found."))
    end.
Proof.
  run. unfold find_row. cbn.
  destruct (List.find _ (table w)) as [prod|]; reflexivity.
Qed.

Lemma not_json_cases request :
  headers request !! "Content-Type" ≠ Some "application/json" →
  headers request !! "Content-Type" = None
  ∨ ∃ received, headers request !! "Content-Type" = Some received
                ∧ received ≠ "application/json".
Proof.
  destruct (headers request !! "Content-Type") as [received|];
    [right; exists received; split; congruence | left; reflexivity].
Qed.

Lemma update_products_not_json request (p : Z) w :
  headers request !! "Content-Type" ≠ Some "application/json" →
  update_products request p w =
    (logged ERROR (content_type_line request)
       (logged INFO
          ("Request to Update Product with id [" +:+ Str.of_Z p +:+ "]") w),
     Aborted 415 "Content-Type must be application/json").
Proof.
  intros [Hh | (received & Hh & Hne)]%not_json_cases;
    run; unfold content_type_line; rewrite Hh; [reflexivity|].
  rewrite (bool_decide_eq_false_2 _ Hne). reflexivity.
Qed.

Lemma create_products_not_json request w :
  headers request !! "Content-Type" ≠ Some "application/json" →
  create_products request w =
    (logged ERROR (content_type_line request)
       (logged INFO "Request to Create a Product..." w),
     Aborted 415 "Content-Type must be application/json").
Proof.
  intros [Hh | (received & Hh & Hne)]%not_json_cases;
    run; unfold content_type_line; rewrite Hh; [reflexivity|].
  rewrite (bool_decide_eq_false_2 _ Hne). reflexivity.
Qed.

Lemma create_products_json request w :
  headers request !! "Content-Type" = Some "application/json" →
  create_products request w =
    let w1 := logged INFO "Request to Create a Product..." w in
    match body request with
    | None => (w1, Aborted 400 bad_request)
    | Some data =>
        let w2 := logged INFO ("Processing: " +:+ repr data) w1 in
        match deserialize new_product data with
        | DataValidationError e => (w2, Aborted 400 e)
        | Valid prod =>
            let i := next_id (table w) in
            (logged INFO ("Product with new id [" +:+ Str.of_Z i +:+ "] saved!")
               {| table := table w ++ [with_id i prod];
                  log := log w2; calls := calls w2 |},
             Done ({| payload := serialize (with_id i prod); code := 201 |},
                   [("Location", url_root +:+ "/products/" +:+ Str.of_Z i)]))
        end
    end.
Proof.
  intros Hct. run. rewrite Hct, bool_decide_eq_true_2 by reflexivity. cbn.
  destruct (body request) as [data|]; cbn; [|reflexivity].
  destruct (deserialize new_product data) as [prod|e]; reflexivity.
Qed.

Lemma delete_products_run (p : Z) w :
  delete_products p w =
    let w1 :=
      after_call (Find p)
        (logged INFO
           ("Request to Delete Product with id [" +:+ Str.of_Z p +:+ "]") w) in
    match find_row p (table w) with
    | Some _ =>
        ({| table := other_rows p (table w); log := log w1; calls := calls w1 |},
         Done ("", 204))
    | None =>
        (w1, Aborted 404
               ("Product with id '" +:+ Str.of_Z p +:+ "' was not found."))
    end.
Proof.
  run. unfold find_row. cbn.
  destruct (List.find _ (table w)) as [prod|]; reflexivity.
Qed.

(** *** Reading *)

(** X1: listing is read-only.  Whatever the query parameters and whatever
    the outcome (a listing or a 400), the table is left as it was and exactly
    one line is logged. *)
Theorem list_products_read_only request w :
  table (list_products request w).1 = table w
  ∧ log (list_products request w).1
    = log w ++ [(INFO, "Request to list Products...")].
Proof.
  assert (Hdec : ∀ o : option string,
             absent_or_empty o ∨ ∃ v, o = Some v ∧ v ≠ "").
  { intros [[|c v]|]; [left; right | right; eexists; split | left; left];
      done. }
  destruct (Hdec (args request !! "name")) as [Hn|(n & Hn & Hne)].
  - destruct (Hdec (args request !! "category")) as [Hc|(c & Hc & Hce)].
    + destruct (args request !! "available") as [v|] eqn:Hv.
      * rewrite (list_products_by_availability request w v Hn Hc Hv). cbv zeta.
        destruct (_parse_bool_param (Some v)); split; reflexivity.
      * rewrite (list_products_unfiltered request w Hn Hc Hv).
        split; reflexivity.
    + rewrite (list_products_by_category request w c Hn Hc Hce). cbv zeta.
      destruct (Category_getattr c) as [[m|o]|]; [split; reflexivity | |
                                                   split; reflexivity].
      destruct (query_other o (table w)) as [r|[k d]]; split; reflexivity.
  - rewrite (list_products_by_name request w n Hn Hne). split; reflexivity.
Qed.

(** X2: a retrieval answers 200 with a stored product whose id is the one
    asked for exactly when some stored product has that id, and answers 404
    exactly when none has; either way the table is left as it was. *)
Theorem get_products_found_iff (p : Z) w :
  ((∃ prod, prod ∈ table w ∧ id prod = p) ↔
   (∃ prod, prod ∈ table w ∧ id prod = p
            ∧ (get_products p w).2
              = Done {| payload := serialize prod; code := 200 |}))
  ∧ ((∀ prod, prod ∈ table w → id prod ≠ p) ↔
     (get_products p w).2
     = Aborted 404 ("Product with id '" +:+ Str.of_Z p +:+ "' was not found."))
  ∧ table (get_products p w).1 = table w.
Proof.
  rewrite (get_products_run p w). cbv zeta.
  destruct (find_row p (table w)) as [found|] eqn:Hfind; cbn.
  - destruct (find_row_some p (table w) found Hfind) as [Hin Hid].
    split; [|split; [|reflexivity]].
    + split; [intros _; exists found; auto | intros (prod & ? & ? & _); eauto].
    + split; [intros Hnone; destruct (Hnone found Hin Hid) | discriminate].
  - pose proof (find_row_is_none p (table w) Hfind) as Hnone.
    split; [|split; [|reflexivity]].
    + split; [intros (prod & Hin & Hid); destruct (Hnone prod Hin Hid)
             | intros (prod & _ & _ & ?); discriminate].
    + split; [reflexivity | intros _; exact Hnone].
Qed.

(** *** Updating *)

(** X3: the update checks the content type before anything else.  Without
    the JSON content type the answer is 415 whatever the id and the body
    are, the persistence layer is not even asked for the product, and the
    table is left as it was. *)
Theorem update_products_content_type_first request (p : Z) w :
  headers request !! "Content-Type" ≠ Some "application/json" →
  (update_products request p w).2
    = Aborted 415 "Content-Type must be application/json"
  ∧ calls (update_products request p w).1 = calls w
  ∧ table (update_products request p w).1 = table w.
Proof.
  intros Hct. rewrite (update_products_not_json request p w Hct).
  repeat split.
Qed.

(** X4: an update never adds, removes, reorders or renumbers rows: whatever
    the request and its outcome, the ids in the table afterwards are the ids
    before, in the same order. *)
Theorem update_products_keeps_ids request (p : Z) w :
  List.map id (table (update_products request p w).1) = List.map id (table w).
Proof.
  destruct (decide (headers request !! "Content-Type" = Some "application/json"))
    as [Hct|Hct].
  - rewrite (update_products_json request p w Hct). cbv zeta.
    destruct (find_row p (table w)) as [found|]; [|reflexivity].
    destruct (body request) as [data|]; [|reflexivity].
    destruct (deserialize found data) as [prod'|e]; [|reflexivity].
    cbn. apply map_id_write_row. reflexivity.
  - rewrite (update_products_not_json request p w Hct). reflexivity.
Qed.

(** X5: an update of [p] leaves the rows of every other id as they were,
    whatever the request, the id in its payload and its outcome. *)
Theorem update_products_other_rows request (p : Z) w :
  other_rows p (table (update_products request p w).1)
  = other_rows p (table w).
Proof.
  destruct (decide (headers request !! "Content-Type" = Some "application/json"))
    as [Hct|Hct].
  - rewrite (update_products_json request p w Hct). cbv zeta.
    destruct (find_row p (table w)) as [found|]; [|reflexivity].
    destruct (body request) as [data|]; [|reflexivity].
    destruct (deserialize found data) as [prod'|e]; [|reflexivity].
    cbn. apply other_rows_write_row. reflexivity.
  - rewrite (update_products_not_json request p w Hct). reflexivity.
Qed.

(** *** Filtering by availability *)

(** X6: an [available] value made of whitespace only, the empty string
    included, is no boolean: the parser answers [None] and the listing (no
    name or category filter selected) is rejected with 400. *)
Theorem list_products_blank_available request w (v : string) :
  Str.all_space v = true →
  _parse_bool_param (Some v) = None
  ∧ (absent_or_empty (args request !! "name") →
     absent_or_empty (args request !! "category") →
     args request !! "available" = Some v →
     list_products request w =
       (logged INFO "Request to list Products..." w,
        Aborted 400 ("Invalid availability: " +:+ v))).
Proof.
  intros Hv.
  assert (Hp : _parse_bool_param (Some v) = None).
  { unfold _parse_bool_param, Str.strip.
    rewrite (lstrip_only_space v Hv). reflexivity. }
  split; [exact Hp|]. intros Hn Hc Ha.
  rewrite (list_products_by_availability request w v Hn Hc Ha).
  cbv zeta. rewrite Hp. reflexivity.
Qed.

(** X7: two spellings of the same boolean are answered alike: when the
    [available] values of two requests (no name or category filter selected
    in either) parse to the same boolean, the two listings are equal. *)
Theorem list_products_same_boolean request request' w (v v' : string) (b : bool) :
  absent_or_empty (args request !! "name") →
  absent_or_empty (args request !! "category") →
  absent_or_empty (args request' !! "name") →
  absent_or_empty (args request' !! "category") →
  args request !! "available" = Some v →
  args request' !! "available" = Some v' →
  _parse_bool_param (Some v) = Some b →
  _parse_bool_param (Some v') = Some b →
  list_products request w = list_products request' w.
Proof.
  intros Hn Hc Hn' Hc' Ha Ha' Hp Hp'.
  rewrite (list_products_by_availability request w v Hn Hc Ha).
  rewrite (list_products_by_availability request' w v' Hn' Hc' Ha').
  cbv zeta. rewrite Hp, Hp'. reflexivity.
Qed.

(** *** Deleting *)

(** X8: after a delete of [p], whatever its outcome, the table is the table
    before without the rows of id [p]: no row of that id is left and the rows
    of the other ids are as they were, in their order. *)
Theorem delete_products_table (p : Z) w :
  table (delete_products p w).1 = other_rows p (table w)
  ∧ Forall (λ prod, id prod ≠ p) (table (delete_products p w).1).
Proof.
  assert (Ht : table (delete_products p w).1 = other_rows p (table w)).
  { rewrite (delete_products_run p w). cbv zeta.
    destruct (find_row p (table w)) as [found|] eqn:Hfind; [reflexivity|].
    cbn. symmetry. apply other_rows_none, find_row_is_none, Hfind. }
  split; [exact Ht|]. rewrite Ht. apply Forall_forall.
  intros prod. apply other_rows_free.
Qed.

(** X9: a delete answers 204 with an empty body exactly when some stored
    product has the id, and 404 exactly when none has. *)
Theorem delete_products_found_iff (p : Z) w :
  ((∃ prod, prod ∈ table w ∧ id prod = p) ↔
   (delete_products p w).2 = Done ("", 204))
  ∧ ((∀ prod, prod ∈ table w → id prod ≠ p) ↔
     (delete_products p w).2
     = Aborted 404 ("Product with id '" +:+ Str.of_Z p +:+ "' was not found.")).
Proof.
  rewrite (delete_products_run p w). cbv zeta.
  destruct (find_row p (table w)) as [found|] eqn:Hfind; cbn.
  - destruct (find_row_some p (table w) found Hfind) as [Hin Hid]. split.
    + split; [reflexivity | intros _; eauto].
    + split; [intros Hnone; destruct (Hnone found Hin Hid) | discriminate].
  - pose proof (find_row_is_none p (table w) Hfind) as Hnone. split.
    + split; [intros (prod & Hin & Hid); destruct (Hnone prod Hin Hid)
             | discriminate].
    + split; [reflexivity | intros _; exact Hnone].
Qed.

(** X10: once a delete of [p] has run, a retrieval of [p] is answered 404,
    and so is a second delete of [p]: at the level of its answers the delete
    is not idempotent. *)
Theorem delete_products_then_not_found (p : Z) w :
  (get_products p (delete_products p w).1).2
    = Aborted 404 ("Product with id '" +:+ Str.of_Z p +:+ "' was not found.")
  ∧ (delete_products p (delete_products p w).1).2
    = Aborted 404 ("Product with id '" +:+ Str.of_Z p +:+ "' was not found.").
Proof.
  assert (Hgone : find_row p (table (delete_products p w).1) = None).
  { apply find_row_none. intros prod Hin.
    rewrite (delete_products_run p w) in Hin. cbv zeta in Hin.
    destruct (find_row p (table w)) as [found|] eqn:Hfind; cbn in Hin.
    - exact (other_rows_free p (table w) prod Hin).
    - exact (find_row_is_none p (table w) Hfind prod Hin). }
  split.
  - rewrite (get_products_run p (delete_products p w).1). cbv zeta.
    rewrite Hgone. reflexivity.
  - rewrite (delete_products_run p (delete_products p w).1). cbv zeta.
    rewrite Hgone. reflexivity.
Qed.

(** *** Creating *)

(** X11: the create handler checks the content type before it reads the
    body: without the JSON content type the answer is 415 whatever the body
    is, and the table is left as it was. *)
Theorem create_products_content_type_first request w :
  headers request !! "Content-Type" ≠ Some "application/json" →
  (create_products request w).2
    = Aborted 415 "Content-Type must be application/json"
  ∧ table (create_products request w).1 = table w.
Proof.
  intros Hct. rewrite (create_products_not_json request w Hct). split; reflexivity.
Qed.

(** X12: a payload that fails validation is answered with 400 and the
    validation error's message, and nothing is inserted. *)
Theorem create_products_invalid request w (data : json) (error : string) :
  headers request !! "Content-Type" = Some "application/json" →
  body request = Some data →
  deserialize new_product data = DataValidationError error →
  (create_products request w).2 = Aborted 400 error
  ∧ table (create_products request w).1 = table w.
Proof.
  intros Hct Hbody Hinvalid. rewrite (create_products_json request w Hct).
  cbv zeta. rewrite Hbody, Hinvalid. split; reflexivity.
Qed.

(** X13: a valid payload is answered with 201, the product under the id the
    store assigned (not an id of the payload) and a [Location] header that
    is the URL of the retrieve route for that id; the new row is put after
    the rows already there, and every id that resolved before resolves to
    the same product. *)
Theorem create_products_created request w (data : json) (prod : Product) :
  headers request !! "Content-Type" = Some "application/json" →
  body request = Some data →
  deserialize new_product data = Valid prod →
  let i := next_id (table w) in
  (create_products request w).2
    = Done ({| payload := serialize (with_id i prod); code := 201 |},
            [("Location", url_root +:+ "/products/" +:+ Str.of_Z i)])
  ∧ (∃ rest, serialize (with_id i prod) = JObj (("id", JInt i) :: rest))
  ∧ table (create_products request w).1 = table w ++ [with_id i prod]
  ∧ (∀ q old, find_row q (table w) = Some old →
              find_row q (table (create_products request w).1) = Some old).
Proof.
  intros Hct Hbody Hvalid i. rewrite (create_products_json request w Hct).
  cbv zeta. rewrite Hbody, Hvalid. cbn.
  split; [reflexivity|]. split; [eexists; reflexivity|].
  split; [reflexivity|]. intros q old Hold. apply find_row_app_old, Hold.
Qed.

(** X14: create then retrieve.  When the id the store assigns is not yet in
    the table, retrieving that id after a successful create is answered 200
    with the very body the create returned. *)
Theorem create_products_then_get request w (data : json) (prod : Product) :
  headers request !! "Content-Type" = Some "application/json" →
  body request = Some data →
  deserialize new_product data = Valid prod →
  (∀ old, old ∈ table w → id old ≠ next_id (table w)) →
  ∃ created location,
    (create_products request w).2 = Done (created, location)
    ∧ (get_products (next_id (table w)) (create_products request w).1).2
      = Done {| payload := payload created; code := 200 |}.
Proof.
  intros Hct Hbody Hvalid Hfresh.
  rewrite (create_products_json request w Hct). cbv zeta.
  rewrite Hbody, Hvalid. cbn [fst snd]. eexists _, _. split; [reflexivity|].
  rewrite get_products_run. cbv zeta. cbn [table logged payload].
  rewrite (find_row_app_fresh (next_id (table w)) (table w)
             (with_id (next_id (table w)) prod) Hfresh eq_refl).
  reflexivity.
Qed.

(** X15: whatever the request and its outcome, a create only ever appends:
    the table afterwards is the table before followed by at most one row. *)
Theorem create_products_appends request w :
  ∃ l, table (create_products request w).1 = table w ++ l
       ∧ (length l ≤ 1)%nat.
Proof.
  assert (Hnil : ∃ l, table w = table w ++ l ∧ (length l ≤ 1)%nat)
    by (exists []; split; [symmetry; apply app_nil_r | cbn; lia]).
  destruct (decide (headers request !! "Content-Type" = Some "application/json"))
    as [Hct|Hct].
  - rewrite (create_products_json request w Hct). cbv zeta.
    destruct (body request) as [data|]; [|exact Hnil].
    destruct (deserialize new_product data) as [prod|e]; [|exact Hnil].
    cbn. eexists [_]. split; [reflexivity | cbn; lia].
  - rewrite (create_products_not_json request w Hct). exact Hnil.
Qed.

End LifecycleProperties.

(** ** The handlers at work in the shop *)

#[local] Existing Instances Shop.enumeration Shop.model_layer.

Lemma check_content_type_guard_witness :
  check_content_type (Shop.put "text/plain" Shop.cap) "application/json" Shop.stock
  = (logged ERROR "Invalid Content-Type: text/plain" Shop.stock,
     Aborted 415 "Content-Type must be application/json").
Proof.
  destruct (check_content_type_guard (Shop.put "text/plain" Shop.cap)
              "application/json" Shop.stock) as (_ & Hother & _).
  apply (Hother "text/plain"); [reflexivity | discriminate].
Defined.

(** C2, as the spec words it, fails: the message of the 415 raised for a
    [text/plain] request does not include the received type. *)
Lemma check_content_type_message_omits_received :
  headers (Shop.put "text/plain" Shop.cap) !! "Content-Type" = Some "text/plain"
  ∧ "text/plain" ≠ "application/json"
  ∧ ∃ w' d,
      check_content_type (Shop.put "text/plain" Shop.cap) "application/json"
        Shop.stock = (w', Aborted 415 d)
      ∧ ¬ includes d "text/plain".
Proof.
  split; [reflexivity|]. split; [discriminate|].
  eexists _, _. split; [reflexivity|].
  rewrite <- contains_includes. discriminate.
Qed.

Lemma parse_bool_param_absent_invalid_witness :
  _parse_bool_param (Some "maybe") = _parse_bool_param None
  ∧ list_products (Shop.query [("available", "maybe")]) Shop.stock
    = (logged INFO "Request to list Products..." Shop.stock,
       Aborted 400 "Invalid availability: maybe")
  ∧ list_products (Shop.query []) Shop.stock
    = (after_call All (logged INFO "Request to list Products..." Shop.stock),
       Done (listing (table Shop.stock))).
Proof.
  destruct (parse_bool_param_absent_invalid
              (Shop.query [("available", "maybe")]) Shop.stock "maybe")
    as (_ & Hsame & Hcaller).
  destruct (parse_bool_param_absent_invalid (Shop.query []) Shop.stock "maybe")
    as (_ & _ & Hcaller').
  split; [|split].
  - apply Hsame. apply (bool_decide_unpack _). reflexivity.
  - apply Hcaller; try (left; reflexivity); reflexivity.
  - apply Hcaller'; try (left; reflexivity); reflexivity.
Defined.

(** C3, as the spec words it, fails: the token [maybe] is none of the ten
    recognised ones, and the parser's answer to it is its answer to an absent
    parameter. *)
Lemma parse_bool_param_absent_is_invalid :
  (Str.lower (Str.strip "maybe")
     ∉ ["true"; "1"; "yes"; "y"; "t"; "false"; "0"; "no"; "n"; "f"])
  ∧ "maybe" ≠ ""
  ∧ _parse_bool_param None = _parse_bool_param (Some "maybe").
Proof.
  split; [|split; [discriminate | reflexivity]].
  apply (bool_decide_unpack _). reflexivity.
Qed.

Lemma list_products_category_witness :
  list_products (Shop.query [("category", "UNKNOWN_CATEGORY")]) Shop.stock
  = (logged INFO "Request to list Products..." Shop.stock,
     Aborted 400 "Invalid category: UNKNOWN_CATEGORY")
  ∧ list_products (Shop.query [("category", "FOOD")]) Shop.stock
    = (after_call (FindByCategory (Member Shop.FOOD))
         (logged INFO "Request to list Products..." Shop.stock),
       Done (listing [Shop.bread])).
Proof.
  split.
  - apply (list_products_category
             (Shop.query [("category", "UNKNOWN_CATEGORY")]) Shop.stock
             "UNKNOWN_CATEGORY");
      [left; reflexivity | reflexivity | discriminate | reflexivity].
  - apply (list_products_category
             (Shop.query [("category", "FOOD")]) Shop.stock "FOOD");
      [left; reflexivity | reflexivity | discriminate | reflexivity].
Defined.

(** C1, as the spec words it, fails: the empty string is the name of no
    category, and a listing asked for [category=] is answered with 200 and
    every product in stock, of whatever category. *)
Lemma list_products_empty_category_lists_all :
  args (Shop.query [("category", "")]) !! "name" = None
  ∧ args (Shop.query [("category", "")]) !! "category" = Some ""
  ∧ (∀ c : Shop.members, Category_name c ≠ "")
  ∧ Category_getattr "" = None
  ∧ list_products (Shop.query [("category", "")]) Shop.stock
    = (after_call All (logged INFO "Request to list Products..." Shop.stock),
       Done {| payload := JList (List.map serialize [Shop.hat; Shop.bread; Shop.saw]);
               code := 200 |}).
Proof.
  split; [reflexivity|]. split; [reflexivity|].
  split; [intros []; discriminate|]. split; reflexivity.
Qed.

Lemma list_products_precedence_witness :
  list_products
    (Shop.query [("name", "Saw"); ("category", "FOOD"); ("available", "maybe")])
    Shop.stock
  = (after_call (FindByName "Saw")
       (logged INFO "Request to list Products..." Shop.stock),
     Done (listing [Shop.saw]))
  ∧ list_products (Shop.query [("category", "FOOD"); ("available", "maybe")])
      Shop.stock
    = (after_call (FindByCategory (Member Shop.FOOD))
         (logged INFO "Request to list Products..." Shop.stock),
       Done (listing [Shop.bread]))
  ∧ list_products
      (Shop.query [("category", "UNKNOWN_CATEGORY"); ("available", "true")])
      Shop.stock
    = (logged INFO "Request to list Products..." Shop.stock,
       Aborted 400 "Invalid category: UNKNOWN_CATEGORY")
  ∧ list_products (Shop.query [("name", ""); ("available", "no")]) Shop.stock
    = (after_call (FindByAvailability false)
         (logged INFO "Request to list Products..." Shop.stock),
       Done (listing [Shop.bread]))
  ∧ list_products (Shop.query [("name", ""); ("category", "")]) Shop.stock
    = (after_call All (logged INFO "Request to list Products..." Shop.stock),
       Done (listing [Shop.hat; Shop.bread; Shop.saw])).
Proof.
  split; [|split; [|split; [|split]]].
  - destruct (list_products_precedence
                (Shop.query [("name", "Saw"); ("category", "FOOD");
                             ("available", "maybe")]) Shop.stock)
      as (Hname & _).
    apply (Hname "Saw"); [reflexivity | discriminate].
  - destruct (list_products_precedence
                (Shop.query [("category", "FOOD"); ("available", "maybe")])
                Shop.stock)
      as (_ & Hcat & _).
    apply (Hcat "FOOD"); [left; reflexivity | reflexivity | discriminate].
  - destruct (list_products_precedence
                (Shop.query [("category", "UNKNOWN_CATEGORY");
                             ("available", "true")]) Shop.stock)
      as (_ & Hcat & _).
    apply (Hcat "UNKNOWN_CATEGORY");
      [left; reflexivity | reflexivity | discriminate].
  - destruct (list_products_precedence
                (Shop.query [("name", ""); ("available", "no")]) Shop.stock)
      as (_ & _ & Hav & _).
    apply (Hav "no"); [right; reflexivity | left; reflexivity | reflexivity].
  - destruct (list_products_precedence
                (Shop.query [("name", ""); ("category", "")]) Shop.stock)
      as (_ & _ & _ & Hall & _).
    apply Hall; [right; reflexivity | right; reflexivity | reflexivity].
Defined.

Lemma list_products_available_witness :
  list_products (Shop.query [("available", "")]) Shop.stock
  = (logged INFO "Request to list Products..." Shop.stock,
     Aborted 400 "Invalid availability: ")
  ∧ list_products (Shop.query [("available", " TRUE ")]) Shop.stock
    = (after_call (FindByAvailability true)
         (logged INFO "Request to list Products..." Shop.stock),
       Done (listing [Shop.hat; Shop.saw])).
Proof.
  split.
  - apply (list_products_available (Shop.query [("available", "")]) Shop.stock "");
      [left; reflexivity | left; reflexivity | reflexivity | reflexivity].
  - apply (list_products_available
             (Shop.query [("available", " TRUE ")]) Shop.stock " TRUE ");
      [left; reflexivity | left; reflexivity | reflexivity | reflexivity].
Defined.

Lemma list_products_empty_name_witness :
  list_products (Shop.query [("name", ""); ("category", "TOOLS")]) Shop.stock
  = list_products (without "name" (Shop.query [("name", ""); ("category", "TOOLS")]))
      Shop.stock.
Proof.
  apply (list_products_empty_name
           (Shop.query [("name", ""); ("category", "TOOLS")]) Shop.stock).
  reflexivity.
Defined.

Lemma update_products_pins_id_witness :
  ∃ w' rest,
    update_products (Shop.put "application/json" Shop.cap) 5 Shop.stock
    = (w', Done {| payload := JObj (("id", JInt 5) :: rest); code := 200 |})
    ∧ find_row 5 (table w') = Some (Shop.cap_as 5).
Proof.
  destruct (update_products_pins_id (Shop.put "application/json" Shop.cap) 5
              Shop.stock Shop.hat (Shop.cap_as 999) Shop.cap)
    as (w' & rest & Hrun & _ & _ & Hrow & _); [reflexivity ..|].
  exists w', rest. split; [exact Hrun | exact Hrow].
Defined.

Lemma update_products_missing_witness :
  update_products (Shop.put "application/json" Shop.no_price) 999999 Shop.stock
  = (after_call (Find 999999)
       (logged INFO "Request to Update Product with id [999999]" Shop.stock),
     Aborted 404 "Product with id '999999' was not found.").
Proof.
  apply (update_products_missing
           (Shop.put "application/json" Shop.no_price) 999999 Shop.stock).
  - reflexivity.
  - intros prod Hin. cbn in Hin. rewrite !elem_of_cons, elem_of_nil in Hin.
    destruct Hin as [->|[->|[->|[]]]]; discriminate.
Defined.

Lemma update_products_invalid_witness :
  ∃ w',
    update_products (Shop.put "application/json" Shop.no_price) 5 Shop.stock
    = (w', Aborted 400 "Invalid product: missing price")
    ∧ table w' = table Shop.stock
    ∧ calls w' = [Find 5].
Proof.
  destruct (update_products_invalid
              (Shop.put "application/json" Shop.no_price) 5 Shop.stock Shop.hat
              Shop.no_price "Invalid product: missing price")
    as (w' & Hrun & Htable & Hcalls & _); [reflexivity ..|].
  exists w'. split; [exact Hrun|]. split; [exact Htable | exact Hcalls].
Defined.


(** ** Creation, deletion and the other extras at work in the shop *)

#[local] Existing Instance ShopCreation.creation.

Lemma update_products_content_type_first_witness :
  (update_products (Shop.put "text/plain" Shop.cap) 999999 Shop.stock).2
    = Aborted 415 "Content-Type must be application/json"
  ∧ calls (update_products (Shop.put "text/plain" Shop.cap) 999999 Shop.stock).1
    = [].
Proof.
  destruct (update_products_content_type_first
              (Shop.put "text/plain" Shop.cap) 999999 Shop.stock)
    as (Hout & Hcalls & _); [discriminate|].
  split; [exact Hout | exact Hcalls].
Defined.

Lemma list_products_blank_available_witness :
  list_products (Shop.query [("available", "  ")]) Shop.stock
  = (logged INFO "Request to list Products..." Shop.stock,
     Aborted 400 "Invalid availability:   ").
Proof.
  destruct (list_products_blank_available
              (Shop.query [("available", "  ")]) Shop.stock "  ")
    as (_ & Hlist); [reflexivity|].
  apply Hlist; [left; reflexivity | left; reflexivity | reflexivity].
Defined.

Lemma list_products_same_boolean_witness :
  list_products (Shop.query [("available", "1")]) Shop.stock
  = list_products (Shop.query [("available", " TRUE ")]) Shop.stock.
Proof.
  apply (list_products_same_boolean
           (Shop.query [("available", "1")])
           (Shop.query [("available", " TRUE ")]) Shop.stock "1" " TRUE " true);
    try (left; reflexivity); reflexivity.
Defined.

Lemma create_products_content_type_first_witness :
  (create_products (ShopCreation.post "text/plain" Shop.no_price) Shop.stock).2
    = Aborted 415 "Content-Type must be application/json"
  ∧ (create_products (ShopCreation.bare Shop.cap) Shop.stock).2
    = Aborted 415 "Content-Type must be application/json".
Proof.
  split.
  - apply (create_products_content_type_first
             (ShopCreation.post "text/plain" Shop.no_price) Shop.stock).
    discriminate.
  - apply (create_products_content_type_first
             (ShopCreation.bare Shop.cap) Shop.stock).
    discriminate.
Defined.

Lemma create_products_invalid_witness :
  (create_products (ShopCreation.post "application/json" Shop.no_price)
     Shop.stock).2
    = Aborted 400 "Invalid product: missing price"
  ∧ table (create_products (ShopCreation.post "application/json" Shop.no_price)
             Shop.stock).1
    = table Shop.stock.
Proof.
  apply (create_products_invalid
           (ShopCreation.post "application/json" Shop.no_price) Shop.stock
           Shop.no_price "Invalid product: missing price"); reflexivity.
Defined.

Lemma create_products_created_witness :
  (create_products (ShopCreation.post "application/json" Shop.cap) Shop.stock).2
    = Done ({| payload := serialize (Shop.cap_as 8); code := 201 |},
            [("Location", "http://localhost/products/8")])
  ∧ table (create_products (ShopCreation.post "application/json" Shop.cap)
             Shop.stock).1
    = [Shop.hat; Shop.bread; Shop.saw; Shop.cap_as 8].
Proof.
  destruct (create_products_created
              (ShopCreation.post "application/json" Shop.cap) Shop.stock
              Shop.cap (Shop.cap_as 999))
    as (Hout & _ & Htable & _); [reflexivity ..|].
  split; [exact Hout | exact Htable].
Defined.

Lemma create_products_then_get_witness :
  ∃ created location,
    (create_products (ShopCreation.post "application/json" Shop.cap)
       Shop.stock).2 = Done (created, location)
    ∧ (get_products 8
         (create_products (ShopCreation.post "application/json" Shop.cap)
            Shop.stock).1).2
      = Done {| payload := payload created; code := 200 |}.
Proof.
  change 8 with (next_id (table Shop.stock)).
  apply (create_products_then_get
           (ShopCreation.post "application/json" Shop.cap) Shop.stock
           Shop.cap (Shop.cap_as 999)); try reflexivity.
  intros old Hin. cbn in Hin. rewrite !elem_of_cons, elem_of_nil in Hin.
  destruct Hin as [->|[->|[->|[]]]]; discriminate.
Defined.
